(** * SeismicGuard Pro (app.py): credential store, session state, inference

    A shallow embedding of [app.py].  The Streamlit script is re-run from top
    to bottom on every interaction; one run is modelled as a computation in a
    small state-and-exception monad over a [world] made of the credential file
    [users.json], the per-browser [st.session_state] and the elements put on
    the page during the run.

    Numbers that the script only passes around (widget values, class
    probabilities) are rationals; the script performs no arithmetic on them
    besides the display scaling [* 100]. *)

From Stdlib Require Import QArith Ascii.
From stdpp Require Import gmap strings list fin_maps.

Open Scope string_scope.
Open Scope list_scope.

(** ** Exceptions and the script monad *)

(** The Python exceptions that the modelled statements can raise, and the
    control-flow signal of [st.rerun()], which abandons the current run. *)
Inductive exn : Type :=
  | PermissionError
  | JSONDecodeError
  | ValueError
  | IndexError
  | AttributeError
  | RerunException.

Inductive result (A : Type) : Type :=
  | Return (a : A)
  | Raise (e : exn).

Arguments Return {A} a.
Arguments Raise {A} e.

(** ** The credential file *)

(** What [users.json] can be when the script looks at it: not there, there
    but not openable for reading, there but not a JSON document, or a JSON
    object from user names to plain-text passwords (the only thing the script
    itself ever writes). *)
Inductive user_db : Type :=
  | Absent
  | Unreadable
  | Malformed
  | Document (users : gmap string string).

(** ** Session state *)

(** One row of [st.session_state['history']]: the dict with keys
    ["Time"], ["Magnitude"] and ["Level"]. *)
Record history_entry : Type := HistoryEntry {
  Time : string;
  Magnitude : Q;
  Level : string
}.

Record session : Type := Session {
  logged_in : bool;
  user : option string;
  history : list history_entry
}.

(** Section 4 of the script: the three keys are created on the first run of
    a browser session. *)
Definition initial_session : session :=
  {| logged_in := false; user := None; history := [] |}.

(** ** Page elements *)

(** The elements a run can put on the page that depend on data.  Static
    markup (style sheet, titles, separators, input captions) is left out. *)
Inductive element : Type :=
  | st_error (msg : string)
  | st_success (msg : string)
  | st_warning (msg : string)
  | st_info (msg : string)
  | sidebar_header (text : string)
  | prediction_card (color level description : string) (confidence_pct : Q)
  | confidence_gauge (value : Q) (color : string)
  | history_table (rows : list history_entry).

(** ** The world of one run *)

Record world : Type := World {
  users_json : user_db;
  session_state : session;
  page : list element
}.

Definition script (A : Type) : Type := world -> result A * world.

Definition ret {A} (a : A) : script A := fun w => (Return a, w).

Definition raise {A} (e : exn) : script A := fun w => (Raise e, w).

(** Sequencing: an exception stops the run and keeps the world as it was
    when the exception was raised. *)
Definition bind {A B} (m : script A) (k : A -> script B) : script B :=
  fun w =>
    match m w with
    | (Return a, w') => k a w'
    | (Raise e, w') => (Raise e, w')
    end.

#[global] Instance script_ret : MRet script := @ret.
#[global] Instance script_bind : MBind script := fun A B k m => bind m k.

Definition lift {A} (r : result A) : script A := fun w => (r, w).

Definition read_file : script user_db := fun w => (Return (users_json w), w).

Definition write_file (d : user_db) : script unit :=
  fun w => (Return tt,
            {| users_json := d; session_state := session_state w; page := page w |}).

Definition get_session : script session :=
  fun w => (Return (session_state w), w).

Definition put_session (s : session) : script unit :=
  fun w => (Return tt,
            {| users_json := users_json w; session_state := s; page := page w |}).

Definition show (e : element) : script unit :=
  fun w => (Return tt,
            {| users_json := users_json w; session_state := session_state w;
               page := page w ++ [e] |}).

(** ** Section 2 of the script: user data management *)

Module CredentialStore.

(** [load_users]: the default admin when the file does not exist, otherwise
    whatever [open] and [json.load] give, errors included.  Nothing is
    caught. *)
Definition load_users : script (gmap string string) :=
  db ← read_file;
  match db with
  | Absent => ret {[ "admin" := "seismic2024" ]}
  | Unreadable => raise PermissionError
  | Malformed => raise JSONDecodeError
  | Document users => ret users
  end.

(** [save_user]: refuses a name that [load_users] already knows, otherwise
    adds it to the loaded dict and overwrites the file with the whole dict. *)
Definition save_user (username password : string) : script bool :=
  users ← load_users;
  match users !! username with
  | Some _ => ret false
  | None =>
      write_file (Document (<[username := password]> users));;
      ret true
  end.

End CredentialStore.

(** ** Python sequences *)

(** [l[i]] on a list or a one-dimensional array: a negative index counts from
    the end, and an index outside [-len, len) raises [IndexError]. *)
Definition py_getitem {A} (l : list A) (i : Z) : result A :=
  let n := Z.of_nat (length l) in
  let j := if (i <? 0)%Z then (i + n)%Z else i in
  if ((0 <=? j)%Z && (j <? n)%Z)%bool then
    match l !! Z.to_nat j with
    | Some a => Return a
    | None => Raise IndexError
    end
  else Raise IndexError.

(** Python truthiness of a [str]. *)
Definition truthy (s : string) : bool :=
  match s with
  | EmptyString => false
  | String _ _ => true
  end.

(** [str.upper] on the ASCII letters; other bytes are kept. *)
Definition upper_ascii (c : ascii) : ascii :=
  let n := nat_of_ascii c in
  if ((97 <=? n)%nat && (n <=? 122)%nat)%bool then ascii_of_nat (n - 32) else c.

Fixpoint upper (s : string) : string :=
  match s with
  | EmptyString => EmptyString
  | String c s' => String (upper_ascii c) (upper s')
  end.

(** ** Section 5 of the script: the model bundle *)

Module Assets.

(** A one-row-per-event table: column labels and rows of numbers. *)
Record DataFrame : Type := {
  columns : list string;
  data : list (list Q)
}.

(** [pd.DataFrame(rows, columns=cols)]: every row must have as many values
    as there are labels, else [ValueError].  The values stay in the positions
    they have in [rows]; the labels are attached to the positions. *)
Definition pd_DataFrame (rows : list (list Q)) (cols : list string)
  : result DataFrame :=
  if forallb (fun r => (length r =? length cols)%nat) rows
  then Return {| columns := cols; data := rows |}
  else Raise ValueError.

(** The pickled estimator: [predict] gives one class index per row,
    [predict_proba] one probability row per row. *)
Record Classifier : Type := {
  predict : list (list Q) -> list Z;
  predict_proba : list (list Q) -> list (list Q)
}.

Record Scaler : Type := {
  transform : DataFrame -> list (list Q)
}.

(** The triple [model, scaler, feature_names] of the script.  [load_assets]
    returns either the three loaded objects or [None, None, None]; the latter
    is [None] here. *)
Record bundle : Type := {
  model : Classifier;
  scaler : Scaler;
  feature_names : list string
}.

(** A pickle file under [output/]: it unpickles to an object, or [open] or
    [pickle.load] raises an exception with the given text. *)
Inductive pickle (A : Type) : Type :=
  | Unpickled (a : A)
  | Failing (e : string).

Arguments Unpickled {A} a.
Arguments Failing {A} e.

Record output_dir : Type := {
  final_model_pkl : pickle Classifier;
  scaler_pkl : pickle Scaler;
  feature_names_pkl : pickle (list string)
}.

(** [load_assets]: the three files are read in order; the first exception is
    caught, reported with [st.error], and the sentinel is returned. *)
Definition load_assets (d : output_dir) : option bundle * list element :=
  let failed e := (None, [st_error ("Error loading model files: " +:+ e)]) in
  match final_model_pkl d with
  | Failing e => failed e
  | Unpickled m =>
      match scaler_pkl d with
      | Failing e => failed e
      | Unpickled sc =>
          match feature_names_pkl d with
          | Failing e => failed e
          | Unpickled names =>
              (Some {| model := m; scaler := sc; feature_names := names |}, [])
          end
      end
  end.

End Assets.

(** ** Widgets *)

(** What the widgets return during one run: the text inputs and buttons of
    the two tabs of the login page, and the sidebar and input form of the
    dashboard. *)
Record widgets : Type := {
  login_user : string;
  login_pw : string;
  sign_in : bool;
  reg_user : string;
  reg_pw : string;
  register_now : bool;
  logout : bool;
  nav : string;
  mag : Q;
  dep : Q;
  mmi : Q;
  cdi : Q;
  sig : Z;
  analyze : bool
}.

(** ** Section 6 of the script: login and registration page *)

Module Views.

Import CredentialStore Assets.

Definition set_logged_in (b : bool) : script unit :=
  s ← get_session;
  put_session {| logged_in := b; user := user s; history := history s |}.

Definition set_user (u : option string) : script unit :=
  s ← get_session;
  put_session {| logged_in := logged_in s; user := u; history := history s |}.

(** [st.session_state['history'].insert(0, e)]. *)
Definition history_insert_front (e : history_entry) : script unit :=
  s ← get_session;
  put_session {| logged_in := logged_in s; user := user s;
                 history := e :: history s |}.

Definition auth_page (ui : widgets) : script unit :=
  (if sign_in ui then
     users ← load_users;
     match users !! login_user ui with
     | Some pw =>
         if String.eqb pw (login_pw ui) then
           set_logged_in true;;
           set_user (Some (login_user ui));;
           raise RerunException
         else show (st_error "Invalid Username or Password")
     | None => show (st_error "Invalid Username or Password")
     end
   else ret tt);;
  if register_now ui then
    if (truthy (reg_user ui) && truthy (reg_pw ui))%bool then
      created ← save_user (reg_user ui) (reg_pw ui);
      if created : bool
      then show (st_success "Account created! Please switch to Login tab.")
      else show (st_error "Username already exists.")
    else show (st_warning "Please enter both username and password.")
  else ret tt.

(** ** Section 7 of the script: the dashboard *)

Definition levels : list string := ["LOW"; "MEDIUM"; "HIGH"; "CRITICAL"].

Definition colors : list string := ["#28a745"; "#ffc107"; "#fd7e14"; "#dc3545"].

Definition descriptions : list string :=
  [ "Minor shaking. No damage reported. Routine monitoring.";
    "Moderate shaking. Potential minor damage to old buildings.";
    "Severe shaking. Structural damage likely. High alert.";
    "Disastrous impact. Extreme damage expected. Emergency response active." ].

(** The row handed to [pd.DataFrame]: the five inputs in the order the
    script writes them, CDI before MMI. *)
Definition input_row (ui : widgets) : list Q :=
  [mag ui; dep ui; cdi ui; mmi ui; inject_Z (sig ui)].

(** [pd.DataFrame([[mag, dep, cdi, mmi, sig]], columns=feature_names)]. *)
Definition input_df (names : list string) (ui : widgets) : result DataFrame :=
  pd_DataFrame [input_row ui] names.

(** The body of [if analyze:] once the model is known to be loaded. *)
Definition ml_logic (b : bundle) (ui : widgets) (now : string) : script unit :=
  input_df ← lift (input_df (feature_names b) ui);
  let scaled := transform (scaler b) input_df in
  pred_idx ← lift (py_getitem (predict (model b) scaled) 0);
  probs ← lift (py_getitem (predict_proba (model b) scaled) 0);
  level ← lift (py_getitem levels pred_idx);
  history_insert_front {| Time := now; Magnitude := mag ui; Level := level |};;
  color ← lift (py_getitem colors pred_idx);
  level ← lift (py_getitem levels pred_idx);
  description ← lift (py_getitem descriptions pred_idx);
  p ← lift (py_getitem probs pred_idx);
  show (prediction_card color level description (p * 100));;
  p ← lift (py_getitem probs pred_idx);
  color ← lift (py_getitem colors pred_idx);
  show (confidence_gauge (p * 100) color).

Definition main_dashboard (assets : option bundle) (ui : widgets) (now : string)
  : script unit :=
  s ← get_session;
  name ← lift (match user s with
               | Some u => Return (upper u)
               | None => Raise AttributeError
               end);
  show (sidebar_header ("### 🛡️ System Access: " +:+ name));;
  (if logout ui then
     set_logged_in false;;
     raise RerunException
   else ret tt);;
  if String.eqb (nav ui) "Prediction Center" then
    if analyze ui then
      match assets with
      | None => show (st_error "Model not loaded. Check your 'output' folder.")
      | Some b => ml_logic b ui now
      end
    else ret tt
  else if String.eqb (nav ui) "Analysis History" then
    s ← get_session;
    match history s with
    | [] => show (st_info "No records found in current session.")
    | _ :: _ => show (history_table (history s))
    end
  else if String.eqb (nav ui) "System Status" then
    show (st_success "Model Status: Online");;
    show (st_success "Database: Connected");;
    show (st_info "Version: 2.1.0 (Pro Edition)")
  else ret tt.

(** ** Section 8 of the script: one run *)

Definition app (assets : option bundle) (ui : widgets) (now : string)
  : script unit :=
  s ← get_session;
  if logged_in s then main_dashboard assets ui now else auth_page ui.

(** One interaction: the script runs on a cleared page; the file and the
    session state carry over to the next interaction whether the run ends
    normally, by [st.rerun()] or by an exception. *)
Definition interact (assets : option bundle) (w : world)
  (i : widgets * string) : world :=
  snd (app assets i.1 i.2
         {| users_json := users_json w; session_state := session_state w;
            page := [] |}).

Definition interactions (assets : option bundle) (w : world)
  (runs : list (widgets * string)) : world :=
  foldl (interact assets) w runs.

End Views.

(** ** Named inputs *)

(** The five quantities the form asks for.  The bundle's [feature_names]
    are strings fixed at training time; [naming] below is any assignment of
    those strings to the quantities they denote. *)
Module FeatureOrder.

Import Assets Views.

Inductive feature : Type :=
  | f_magnitude
  | f_depth
  | f_mmi
  | f_cdi
  | f_sig.

Definition named_input (ui : widgets) (f : feature) : Q :=
  match f with
  | f_magnitude => mag ui
  | f_depth => dep ui
  | f_mmi => mmi ui
  | f_cdi => cdi ui
  | f_sig => inject_Z (sig ui)
  end.

Definition all_features : list feature :=
  [f_magnitude; f_depth; f_mmi; f_cdi; f_sig].

(** The order in which the script writes the values. *)
Definition script_order : list feature :=
  [f_magnitude; f_depth; f_cdi; f_mmi; f_sig].

(** A row follows a list of names when every position labelled with the
    name of a quantity holds the value entered for that quantity. *)
Definition follows_names (naming : feature -> string) (names : list string)
  (ui : widgets) (row : list Q) : Prop :=
  forall (k : nat) (f : feature),
    names !! k = Some (naming f) -> row !! k = Some (named_input ui f).

(** The reading of the feature-order list as a mapping from names to
    inputs: for every naming and every permutation of the five names, the
    frame handed to the scaler has one row and that row follows the names. *)
Definition vector_ordered_by_feature_names (naming : feature -> string)
  (names : list string) (ui : widgets) : Prop :=
  names ≡ₚ (naming <$> all_features) ->
  exists df row,
    input_df names ui = Return df /\ data df = [row] /\
    follows_names naming (columns df) ui row.

End FeatureOrder.

(** ** Worlds and sequences of registrations *)

(** The world in which the file holds [d] and nothing else has happened. *)
Definition fresh_world (d : user_db) : world :=
  {| users_json := d; session_state := initial_session; page := [] |}.

Definition with_file (w : world) (d : user_db) : world :=
  {| users_json := d; session_state := session_state w; page := page w |}.

(** Registrations made one after the other; a registration that raises
    leaves the world as the exception found it. *)
Definition register_all (w : world) (regs : list (string * string)) : world :=
  foldl (fun w r => snd (CredentialStore.save_user r.1 r.2 w)) w regs.

(** The seeded admin credential as a property of a world. *)
Definition admin_seeded (w : world) : Prop :=
  exists users, CredentialStore.load_users w = (Return users, w) /\
                users !! "admin" = Some "seismic2024".

(** The world after more elements have been put on the page. *)
Definition shown (w : world) (es : list element) : world :=
  {| users_json := users_json w; session_state := session_state w;
     page := page w ++ es |}.

Definition with_session (w : world) (s : session) : world :=
  {| users_json := users_json w; session_state := s; page := page w |}.

(** The frame built from the form and a list of labels of the right
    length, and what the scaler makes of it. *)
Definition frame (names : list string) (ui : widgets) : Assets.DataFrame :=
  {| Assets.columns := names; Assets.data := [Views.input_row ui] |}.

Definition scaled_frame (b : Assets.bundle) (ui : widgets) : list (list Q) :=
  Assets.transform (Assets.scaler b) (frame (Assets.feature_names b) ui).

(** The header that the dashboard puts in the sidebar for user [u]. *)
Definition header_of (u : string) : element :=
  sidebar_header ("### 🛡️ System Access: " +:+ upper u).

(** ** Interactions *)

(** The form as the script first draws it: empty text fields, no button
    pressed, the first sidebar entry selected, and the default value of each
    [number_input]. *)
Definition untouched : widgets :=
  {| login_user := ""; login_pw := ""; sign_in := false;
     reg_user := ""; reg_pw := ""; register_now := false;
     logout := false; nav := "Prediction Center";
     mag := 7.2; dep := 15.0; mmi := 8.0; cdi := 7.5; sig := 600;
     analyze := false |}.

Definition press_sign_in (name pw : string) : widgets :=
  {| login_user := name; login_pw := pw; sign_in := true;
     reg_user := ""; reg_pw := ""; register_now := false;
     logout := false; nav := "Prediction Center";
     mag := 7.2; dep := 15.0; mmi := 8.0; cdi := 7.5; sig := 600;
     analyze := false |}.

Definition press_logout : widgets :=
  {| login_user := ""; login_pw := ""; sign_in := false;
     reg_user := ""; reg_pw := ""; register_now := false;
     logout := true; nav := "Prediction Center";
     mag := 7.2; dep := 15.0; mmi := 8.0; cdi := 7.5; sig := 600;
     analyze := false |}.

Definition press_analyze (m d i c : Q) (s : Z) : widgets :=
  {| login_user := ""; login_pw := ""; sign_in := false;
     reg_user := ""; reg_pw := ""; register_now := false;
     logout := false; nav := "Prediction Center";
     mag := m; dep := d; mmi := i; cdi := c; sig := s;
     analyze := true |}.

(** A run in which RUN AI ANALYSIS is pressed on the Prediction Center. *)
Definition analysis_run (r : widgets * string) : Prop :=
  logout r.1 = false /\ nav r.1 = "Prediction Center" /\ analyze r.1 = true.

(** A bundle that answers every form: five labels, a class index in [0..3]
    and a probability row for whatever the scaler produces. *)
Definition answers (b : Assets.bundle) : Prop :=
  length (Assets.feature_names b) = 5%nat /\
  forall ui, exists i p,
    Assets.predict (Assets.model b) (scaled_frame b ui) !! 0%nat = Some i /\
    (0 <= i <= 3)%Z /\
    Assets.predict_proba (Assets.model b) (scaled_frame b ui) !! 0%nat = Some p.

(** History entry [e] is the record of run [r]: its time and magnitude are
    those of the run and its level is the one the classifier chose. *)
Definition records (b : Assets.bundle) (e : history_entry)
  (r : widgets * string) : Prop :=
  Time e = r.2 /\ Magnitude e = mag r.1 /\
  exists i,
    Assets.predict (Assets.model b) (scaled_frame b r.1) !! 0%nat = Some i /\
    py_getitem Views.levels i = Return (Level e).

(** A stand-in bundle for examples: the scaler hands the rows on, and the
    classifier answers class [i] with probability row [p] whatever it is
    given. *)
Definition constant_bundle (names : list string) (i : Z) (p : list Q)
  : Assets.bundle :=
  {| Assets.model := {| Assets.predict := fun _ => [i];
                        Assets.predict_proba := fun _ => [p] |};
     Assets.scaler := {| Assets.transform := Assets.data |};
     Assets.feature_names := names |}.

(** A naming of the five quantities, and the labels in the order of the
    form, MMI before CDI. *)
Definition plain_naming (f : FeatureOrder.feature) : string :=
  match f with
  | FeatureOrder.f_magnitude => "magnitude"
  | FeatureOrder.f_depth => "depth"
  | FeatureOrder.f_mmi => "mmi"
  | FeatureOrder.f_cdi => "cdi"
  | FeatureOrder.f_sig => "sig"
  end.

Definition form_order_names : list string :=
  plain_naming <$> FeatureOrder.all_features.

Definition script_order_names : list string :=
  plain_naming <$> FeatureOrder.script_order.

(** A signed-in session of [u] with history [h], on a file state [d]. *)
Definition signed_in (d : user_db) (u : string) (h : list history_entry)
  : world :=
  {| users_json := d;
     session_state := {| logged_in := true; user := Some u; history := h |};
     page := [] |}.

(** ** Section 4 of the script: session state initialisation *)

(** [st.session_state] as the dict it is when a run starts: each of the
    three keys may be missing. *)
Record session_keys : Type := {
  key_logged_in : option bool;
  key_user : option (option string);
  key_history : option (list history_entry)
}.

(** The three [if key not in st.session_state] statements. *)
Definition initialise (k : session_keys) : session_keys :=
  let k1 :=
    match key_logged_in k with
    | None => {| key_logged_in := Some false; key_user := key_user k;
                 key_history := key_history k |}
    | Some _ => k
    end in
  let k2 :=
    match key_user k1 with
    | None => {| key_logged_in := key_logged_in k1; key_user := Some None;
                 key_history := key_history k1 |}
    | Some _ => k1
    end in
  match key_history k2 with
  | None => {| key_logged_in := key_logged_in k2; key_user := key_user k2;
               key_history := Some [] |}
  | Some _ => k2
  end.

(** The session record of a dict that has the three keys. *)
Definition complete (k : session_keys) : option session :=
  match key_logged_in k, key_user k, key_history k with
  | Some l, Some u, Some h =>
      Some {| logged_in := l; user := u; history := h |}
  | _, _, _ => None
  end.

Definition keys_of (s : session) : session_keys :=
  {| key_logged_in := Some (logged_in s); key_user := Some (user s);
     key_history := Some (history s) |}.

(** ** More interactions *)

Definition press_register (name pw : string) : widgets :=
  {| login_user := ""; login_pw := ""; sign_in := false;
     reg_user := name; reg_pw := pw; register_now := true;
     logout := false; nav := "Prediction Center";
     mag := 7.2; dep := 15.0; mmi := 8.0; cdi := 7.5; sig := 600;
     analyze := false |}.

Definition select_panel (panel : string) : widgets :=
  {| login_user := ""; login_pw := ""; sign_in := false;
     reg_user := ""; reg_pw := ""; register_now := false;
     logout := false; nav := panel;
     mag := 7.2; dep := 15.0; mmi := 8.0; cdi := 7.5; sig := 600;
     analyze := false |}.

(** The world at the start of a run: the page is empty. *)
Definition cleared (w : world) : world :=
  {| users_json := users_json w; session_state := session_state w;
     page := [] |}.

(** A session that is signed in names its user. *)
Definition named (s : session) : Prop :=
  logged_in s = false \/ is_Some (user s).

(** The mapping a world's credential file stands for, if it can be read. *)
Definition credentials (w : world) : result (gmap string string) :=
  fst (CredentialStore.load_users w).

(** ** What a run leaves alone *)

(** [preserves R m]: from whatever world [m] starts and however it ends,
    normally or by an exception, the world it leaves is [R]-related to the
    one it found. *)
Definition preserves {A} (R : relation world) (m : script A) : Prop :=
  forall w, R w (snd (m w)).

(** The relations followed below: they compose, and none of them looks at
    the page. *)
Class Frame (R : relation world) : Prop := {
  frame_refl : forall w, R w w;
  frame_trans : forall w1 w2 w3, R w1 w2 -> R w2 w3 -> R w1 w3;
  frame_page : forall w es,
    R w {| users_json := users_json w; session_state := session_state w;
           page := es |}
}.

Definition same_file : relation world :=
  fun w w' => users_json w' = users_json w.

Definition history_extended : relation world :=
  fun w w' =>
    history (session_state w) `suffix_of` history (session_state w').

Definition stays_named : relation world :=
  fun w w' => named (session_state w) -> named (session_state w').

Definition credentials_kept : relation world :=
  fun w w' =>
    forall users, credentials w = Return users ->
    exists users', credentials w' = Return users' /\ users ⊆ users'.

(** * Properties *)

(** ** The credential store *)

Section CredentialStoreFacts.

Import CredentialStore.

Implicit Types (w : world) (users : gmap string string).
Implicit Types (username password : string).

Lemma load_users_eq w :
  load_users w =
  (match users_json w with
   | Absent => Return {[ "admin" := "seismic2024" ]}
   | Unreadable => Raise PermissionError
   | Malformed => Raise JSONDecodeError
   | Document users => Return users
   end, w).
Proof.
  unfold load_users, mbind, script_bind, bind, read_file.
  by destruct (users_json w).
Qed.

Lemma save_user_eq w username password :
  save_user username password w =
  match load_users w with
  | (Return users, _) =>
      match users !! username with
      | Some _ => (Return false, w)
      | None => (Return true, with_file w (Document (<[username := password]> users)))
      end
  | (Raise e, _) => (Raise e, w)
  end.
Proof.
  unfold save_user, mbind, script_bind, bind.
  rewrite load_users_eq.
  destruct (users_json w) as [| | |users]; try reflexivity.
  - by destruct (_ !! username).
  - by destruct (users !! username).
Qed.

Lemma save_user_known w users username password :
  load_users w = (Return users, w) ->
  is_Some (users !! username) ->
  save_user username password w = (Return false, w).
Proof.
  intros Hload [pw Hpw]. rewrite save_user_eq, Hload, Hpw. reflexivity.
Qed.


Lemma load_users_document w users :
  load_users (with_file w (Document users)) =
  (Return users, with_file w (Document users)).
Proof. by rewrite load_users_eq. Qed.

(** C3. A name that [load_users] already knows is refused: [save_user]
    returns [False] and the world, the file in it included, is the one it
    started from.  In particular, once ["alice"] has been registered with
    ["pw1"], registering ["alice"] with ["pw2"] returns [False], changes
    nothing, and the stored password of ["alice"] is still ["pw1"]. *)
Theorem register_existing_is_conflict w users username password :
  load_users w = (Return users, w) ->
  is_Some (users !! username) ->
  save_user username password w = (Return false, w) /\
  (forall w0 w1,
     save_user "alice" "pw1" w0 = (Return true, w1) ->
     save_user "alice" "pw2" w1 = (Return false, w1) /\
     exists users1,
       load_users w1 = (Return users1, w1) /\
       users1 !! "alice" = Some "pw1").
Proof.
  intros Hload Hknown. split; [by eapply save_user_known|].
  clear. intros w0 w1. rewrite save_user_eq.
  destruct (load_users w0) as [[users0|e] w0'] eqn:Hload0; [|discriminate].
  destruct (users0 !! "alice") eqn:Halice; [discriminate|].
  intros [= <-].
  assert (Hin : (<["alice" := "pw1"]> users0) !! "alice" = Some "pw1")
    by apply lookup_insert_eq.
  split.
  - eapply save_user_known; [apply load_users_document|]. by rewrite Hin.
  - eexists. split; [apply load_users_document|exact Hin].
Qed.

Lemma register_existing_is_conflict_witness :
  save_user "admin" "other" (fresh_world Absent)
  = (Return false, fresh_world Absent) /\
  save_user "alice" "pw2" (fresh_world (Document {[ "alice" := "pw1" ]}))
  = (Return false, fresh_world (Document {[ "alice" := "pw1" ]})).
Proof.
  split.
  - apply (register_existing_is_conflict (fresh_world Absent)
             {[ "admin" := "seismic2024" ]} "admin" "other");
      [reflexivity | by eexists].
  - apply (register_existing_is_conflict
             (fresh_world (Document {[ "alice" := "pw1" ]}))
             {[ "alice" := "pw1" ]} "alice" "pw2");
      [reflexivity | by eexists].
Defined.



(** C6, as stated, fails: on a file that is there but is not JSON,
    [load_users] raises [JSONDecodeError] to its caller instead of behaving
    as for an absent file (which yields the seeded admin mapping). *)
Lemma load_users_malformed_raises :
  fst (load_users (fresh_world Malformed)) = Raise JSONDecodeError /\
  fst (load_users (fresh_world Malformed))
  <> fst (load_users (fresh_world Absent)) /\
  ~ (forall w, exists users, fst (load_users w) = Return users).
Proof.
  split; [reflexivity|]. split; [discriminate|].
  intros Hall. destruct (Hall (fresh_world Malformed)) as [users Hu].
  discriminate Hu.
Qed.

(** C6, amended. [load_users] never changes the world.  When the file is
    absent it returns the default mapping, whose only entry is the seeded
    admin credential; when the file holds a mapping it returns that mapping;
    when the file cannot be opened or is not JSON the exception of [open] or
    [json.load] reaches the caller. *)
Theorem load_users_by_file_state w :
  snd (load_users w) = w /\
  match users_json w with
  | Absent =>
      fst (load_users w) = Return {[ "admin" := "seismic2024" ]} /\
      dom ({[ "admin" := "seismic2024" ]} : gmap string string) = {[ "admin" ]}
  | Document users => fst (load_users w) = Return users
  | Unreadable => fst (load_users w) = Raise PermissionError
  | Malformed => fst (load_users w) = Raise JSONDecodeError
  end.
Proof.
  rewrite load_users_eq. split; [reflexivity|].
  destruct (users_json w); try reflexivity.
  split; [reflexivity | apply dom_singleton_L].
Qed.

Lemma admin_seeded_save_user w username password :
  admin_seeded w -> admin_seeded (snd (save_user username password w)).
Proof.
  intros (users & Hload & Hadmin). rewrite save_user_eq, Hload.
  destruct (users !! username) eqn:Hname; simpl.
  - by exists users.
  - exists (<[username := password]> users).
    split; [apply load_users_document|].
    rewrite lookup_insert_ne; [done|]. intros ->. congruence.
Qed.

Lemma admin_seeded_register_all regs : forall w,
  admin_seeded w -> admin_seeded (register_all w regs).
Proof.
  induction regs as [|[u p] regs IH]; intros w Hw; [exact Hw|].
  apply IH. by apply admin_seeded_save_user.
Qed.

(** C10. With no credential file, registering ["admin"] with any password
    returns [False] and leaves the world, still without a file, as it was:
    the default mapping already has the name.  And whatever registrations
    follow a state without file, [load_users] keeps returning a mapping in
    which ["admin"] has the seeded password. *)
Theorem register_admin_without_file w password :
  users_json w = Absent ->
  save_user "admin" password w = (Return false, w) /\
  (forall regs, exists users,
     load_users (register_all w regs) = (Return users, register_all w regs) /\
     users !! "admin" = Some "seismic2024").
Proof.
  intros Habsent.
  assert (Hload : load_users w = (Return {[ "admin" := "seismic2024" ]}, w))
    by (by rewrite load_users_eq, Habsent).
  split.
  - eapply save_user_known; [exact Hload | by eexists].
  - intros regs. apply admin_seeded_register_all. by eexists.
Qed.

Lemma register_admin_without_file_witness :
  save_user "admin" "hunter2" (fresh_world Absent)
  = (Return false, fresh_world Absent).
Proof.
  apply (register_admin_without_file (fresh_world Absent) "hunter2").
  reflexivity.
Defined.

End CredentialStoreFacts.

(** ** Python indexing *)

Lemma py_getitem_nonneg {A} (l : list A) (i : Z) (a : A) :
  (0 <= i)%Z -> l !! Z.to_nat i = Some a -> py_getitem l i = Return a.
Proof.
  intros Hi Hl. unfold py_getitem.
  assert (Hlt : (Z.to_nat i < length l)%nat) by (eapply lookup_lt_Some; eauto).
  destruct (Z.ltb_spec i 0) as [?|_]; [lia|].
  destruct (Z.leb_spec 0 i) as [_|?]; [|lia].
  destruct (Z.ltb_spec i (Z.of_nat (length l))) as [_|?]; [|lia].
  simpl. by rewrite Hl.
Qed.

Lemma py_getitem_first {A} (l : list A) (a : A) :
  l !! 0%nat = Some a -> py_getitem l 0 = Return a.
Proof. intros Hl. by apply py_getitem_nonneg. Qed.

(** ** The dashboard *)

Section DashboardFacts.

Import CredentialStore Assets Views.

Implicit Types (w : world) (ui : widgets) (now u : string) (b : bundle).

Ltac run_script :=
  unfold mbind, script_bind, bind, mret, script_ret, ret, raise, lift, show,
    set_logged_in, set_user, history_insert_front, get_session, put_session;
  simpl.

Lemma input_df_eq names ui :
  length names = 5%nat -> input_df names ui = Return (frame names ui).
Proof.
  intros Hlen. unfold input_df, pd_DataFrame, frame. simpl.
  by rewrite Hlen.
Qed.

Lemma main_dashboard_logout assets ui now w u :
  user (session_state w) = Some u ->
  logout ui = true ->
  main_dashboard assets ui now w =
  (Raise RerunException,
   shown (with_session w {| logged_in := false; user := Some u;
                            history := history (session_state w) |})
         [header_of u]).
Proof.
  intros Hu Hout. unfold main_dashboard. run_script.
  rewrite Hu, Hout. simpl. rewrite Hu. reflexivity.
Qed.

Lemma main_dashboard_analyze assets ui now w u :
  user (session_state w) = Some u ->
  logout ui = false ->
  nav ui = "Prediction Center" ->
  analyze ui = true ->
  main_dashboard assets ui now w =
  match assets with
  | None => (Return tt,
             shown w [header_of u;
                      st_error "Model not loaded. Check your 'output' folder."])
  | Some b => ml_logic b ui now (shown w [header_of u])
  end.
Proof.
  intros Hu Hout Hnav Han. unfold main_dashboard. run_script.
  rewrite Hu, Hout, Hnav, Han. simpl.
  destruct assets as [b|]; [reflexivity|].
  unfold shown. simpl. by rewrite <- app_assoc.
Qed.

(** What [ml_logic] does when the bundle answers with class [i] in
    [0..3] and a first probability row [p]: the history entry is inserted
    first, and the card and the gauge follow if [p[i]] exists. *)
Lemma ml_logic_eq b ui now w i p :
  length (feature_names b) = 5%nat ->
  predict (model b) (scaled_frame b ui) !! 0%nat = Some i ->
  (0 <= i <= 3)%Z ->
  predict_proba (model b) (scaled_frame b ui) !! 0%nat = Some p ->
  exists level color description,
    levels !! Z.to_nat i = Some level /\
    colors !! Z.to_nat i = Some color /\
    descriptions !! Z.to_nat i = Some description /\
    let w1 :=
      with_session w
        {| logged_in := logged_in (session_state w);
           user := user (session_state w);
           history := {| Time := now; Magnitude := mag ui; Level := level |}
                      :: history (session_state w) |} in
    ml_logic b ui now w =
    match py_getitem p i with
    | Return confidence =>
        (Return tt,
         shown w1 [prediction_card color level description (confidence * 100);
                   confidence_gauge (confidence * 100) color])
    | Raise e => (Raise e, w1)
    end.
Proof.
  intros Hlen Hidx Hi Hprobs.
  assert (Hcases : i = 0%Z \/ i = 1%Z \/ i = 2%Z \/ i = 3%Z) by lia.
  unfold ml_logic. run_script.
  rewrite (input_df_eq _ _ Hlen).
  change (transform (scaler b) (frame (feature_names b) ui))
    with (scaled_frame b ui).
  rewrite (py_getitem_first _ _ Hidx), (py_getitem_first _ _ Hprobs).
  destruct Hcases as [-> | [-> | [-> | ->]]]; simpl;
    (do 3 eexists; do 3 (split; [reflexivity|]));
    destruct (py_getitem p _); unfold shown, with_session; simpl;
    rewrite <- ?app_assoc; reflexivity.
Qed.



(** The same scenario evaluated: level HIGH, colour #fd7e14, confidence
    0.70 shown as 70 percent, and the entry at position 0 of the history. *)
Example scenario_high :
  ml_logic (constant_bundle script_order_names 2 [0.05; 0.10; 0.70; 0.15]%Q)
    (press_analyze 7.2 15.0 8.0 7.5 600) "10:15:00"
    (signed_in Absent "admin" []) =
  (Return tt,
   {| users_json := Absent;
      session_state :=
        {| logged_in := true; user := Some "admin";
           history := [{| Time := "10:15:00"; Magnitude := 7.2;
                          Level := "HIGH" |}] |};
      page := [prediction_card "#fd7e14" "HIGH"
                 "Severe shaking. Structural damage likely. High alert."
                 (0.70 * 100);
               confidence_gauge (0.70 * 100) "#fd7e14"] |}).
Proof. reflexivity. Qed.

(** C7. When [load_assets] has returned the sentinel, pressing RUN AI
    ANALYSIS puts the error message on the page after the sidebar header and
    nothing else: no card, no gauge, and the run ends with the file and the
    session state, history included, exactly as they were. *)
Theorem analysis_without_model (d : output_dir) ui now w u :
  fst (load_assets d) = None ->
  user (session_state w) = Some u ->
  logout ui = false ->
  nav ui = "Prediction Center" ->
  analyze ui = true ->
  main_dashboard (fst (load_assets d)) ui now w =
  (Return tt,
   {| users_json := users_json w;
      session_state := session_state w;
      page := page w ++
              [header_of u;
               st_error "Model not loaded. Check your 'output' folder."] |}) /\
  history (session_state (snd (main_dashboard (fst (load_assets d)) ui now w)))
  = history (session_state w).
Proof.
  intros Hnone Hu Hout Hnav Han.
  rewrite (main_dashboard_analyze _ ui now w u Hu Hout Hnav Han), Hnone.
  split; reflexivity.
Qed.

(** A bundle directory whose model file cannot be read. *)
Lemma analysis_without_model_witness :
  main_dashboard None (press_analyze 7.2 15.0 8.0 7.5 600) "10:15:00"
    (signed_in Absent "admin" []) =
  (Return tt,
   {| users_json := Absent;
      session_state := {| logged_in := true; user := Some "admin";
                          history := [] |};
      page := [header_of "admin";
               st_error "Model not loaded. Check your 'output' folder."] |}).
Proof.
  apply (analysis_without_model
           {| final_model_pkl := Failing "No such file or directory";
              scaler_pkl := Failing "No such file or directory";
              feature_names_pkl := Failing "No such file or directory" |}
           (press_analyze 7.2 15.0 8.0 7.5 600) "10:15:00"
           (signed_in Absent "admin" []) "admin");
    reflexivity.
Defined.

(** C5, as stated, fails: after Logout the session still names the user who
    was signed in. *)
Lemma logout_keeps_user :
  user (session_state
          (snd (main_dashboard None press_logout "10:15:00"
                  (signed_in Absent "admin" []))))
  = Some "admin" /\
  user (session_state
          (snd (main_dashboard None press_logout "10:15:00"
                  (signed_in Absent "admin" []))))
  <> None.
Proof. split; [reflexivity | discriminate]. Qed.

(** C5, amended. Logout sets [logged_in] to [False] and abandons the run
    with [st.rerun()]; the user name and the history of the session, and the
    credential file, are left as they were. *)
Theorem logout_clears_flag_only assets ui now w u :
  user (session_state w) = Some u ->
  logout ui = true ->
  exists w',
    main_dashboard assets ui now w = (Raise RerunException, w') /\
    logged_in (session_state w') = false /\
    user (session_state w') = Some u /\
    history (session_state w') = history (session_state w) /\
    users_json w' = users_json w.
Proof.
  intros Hu Hout. eexists.
  split; [by apply main_dashboard_logout|]. by repeat split.
Qed.

Lemma logout_clears_flag_only_witness :
  exists w',
    main_dashboard None press_logout "10:15:00"
      (signed_in Absent "admin"
         [{| Time := "10:15:00"; Magnitude := 7.2; Level := "HIGH" |}])
    = (Raise RerunException, w') /\
    logged_in (session_state w') = false /\
    user (session_state w') = Some "admin" /\
    history (session_state w')
    = [{| Time := "10:15:00"; Magnitude := 7.2; Level := "HIGH" |}] /\
    users_json w' = Absent.
Proof.
  apply (logout_clears_flag_only None press_logout "10:15:00"
           (signed_in Absent "admin"
              [{| Time := "10:15:00"; Magnitude := 7.2; Level := "HIGH" |}])
           "admin");
    reflexivity.
Defined.

(** C9. With no credential file, Sign In with ["admin"] and
    ["seismic2024"] succeeds: [logged_in] becomes [True], [user] becomes
    ["admin"], and the run is abandoned with [st.rerun()]; no file is
    created and the history is untouched. *)
Theorem sign_in_seeded_admin ui w :
  users_json w = Absent ->
  sign_in ui = true ->
  login_user ui = "admin" ->
  login_pw ui = "seismic2024" ->
  auth_page ui w =
  (Raise RerunException,
   with_session w {| logged_in := true; user := Some "admin";
                     history := history (session_state w) |}).
Proof.
  intros Habsent Hsign Hname Hpw. unfold auth_page. run_script.
  rewrite Hsign. rewrite load_users_eq, Habsent, Hname, Hpw. reflexivity.
Qed.

Lemma sign_in_seeded_admin_witness :
  app None (press_sign_in "admin" "seismic2024") "10:15:00" (fresh_world Absent)
  = (Raise RerunException,
     {| users_json := Absent;
        session_state := {| logged_in := true; user := Some "admin";
                            history := [] |};
        page := [] |}).
Proof.
  apply (sign_in_seeded_admin (press_sign_in "admin" "seismic2024")
           (fresh_world Absent));
    reflexivity.
Defined.

(** One analysis on a signed-in session: the session stays signed in and
    gains, at the front of its history, the record of the run. *)
Lemma interact_analysis b w u r :
  answers b ->
  analysis_run r ->
  logged_in (session_state w) = true ->
  user (session_state w) = Some u ->
  exists e,
    records b e r /\
    session_state (interact (Some b) w r) =
    {| logged_in := true; user := Some u;
       history := e :: history (session_state w) |} /\
    users_json (interact (Some b) w r) = users_json w.
Proof.
  intros [Hlen Hans] (Hout & Hnav & Han) Hin Hu.
  destruct (Hans r.1) as (i & p & Hidx & Hi & Hprobs).
  unfold interact, app. run_script. rewrite Hin.
  rewrite (main_dashboard_analyze _ r.1 r.2 _ u); [|done..].
  destruct (ml_logic_eq b r.1 r.2
              (shown {| users_json := users_json w;
                        session_state := session_state w; page := [] |}
                     [header_of u]) i p Hlen Hidx Hi Hprobs)
    as (level & color & description & Hlevel & _ & _ & Hrun).
  simpl in Hrun. rewrite Hrun, Hin, Hu.
  exists {| Time := r.2; Magnitude := mag r.1; Level := level |}.
  split.
  - repeat split. exists i. split; [exact Hidx|].
    apply py_getitem_nonneg; [lia | exact Hlevel].
  - by destruct (py_getitem p i).
Qed.

Lemma interactions_analyses b u runs : forall w,
  answers b ->
  Forall analysis_run runs ->
  logged_in (session_state w) = true ->
  user (session_state w) = Some u ->
  exists entries,
    history (session_state (interactions (Some b) w runs))
    = entries ++ history (session_state w) /\
    Forall2 (records b) entries (reverse runs).
Proof.
  induction runs as [|r runs IH]; intros w Hb Hruns Hin Hu.
  - exists []. split; [reflexivity | constructor].
  - apply Forall_cons in Hruns as [Hr Hruns].
    destruct (interact_analysis b w u r Hb Hr Hin Hu) as (e & He & Hs & _).
    destruct (IH (interact (Some b) w r) Hb Hruns) as (entries & Hh & Hall);
      [by rewrite Hs..|].
    exists (entries ++ [e]). split.
    + change (interactions (Some b) w (r :: runs))
        with (interactions (Some b) (interact (Some b) w r) runs).
      rewrite Hh, Hs. simpl. by rewrite <- app_assoc.
    + rewrite reverse_cons. apply Forall2_app; [exact Hall|].
      constructor; [exact He | constructor].
Qed.

(** C8. Starting from a signed-in session with an empty history, after N
    runs in which the analysis is performed the history has N entries, entry
    by entry the records of the runs from the last one back to the first; in
    particular entry 0 is the record of the Nth run. *)
Theorem history_newest_first b (d : user_db) u runs :
  answers b ->
  Forall analysis_run runs ->
  let h := history (session_state
                      (interactions (Some b) (signed_in d u []) runs)) in
  length h = length runs /\
  Forall2 (records b) h (reverse runs) /\
  (forall r, last runs = Some r ->
             exists e, h !! 0%nat = Some e /\ records b e r).
Proof.
  intros Hb Hruns h.
  destruct (interactions_analyses b u runs (signed_in d u []) Hb Hruns)
    as (entries & Hh & Hall); [reflexivity..|].
  simpl in Hh. rewrite app_nil_r in Hh. subst h. rewrite Hh.
  split; [|split].
  - rewrite (Forall2_length _ _ _ Hall). apply length_reverse.
  - exact Hall.
  - intros r Hlast. apply last_Some in Hlast as [runs' ->].
    rewrite reverse_snoc in Hall.
    apply Forall2_cons_inv_r in Hall as (e & entries' & He & _ & ->).
    by exists e.
Qed.

Lemma history_newest_first_witness :
  let b := constant_bundle script_order_names 2 [0.05; 0.10; 0.70; 0.15]%Q in
  let runs := [(press_analyze 5.1 10.0 4.0 4.0 300, "10:15:00");
               (press_analyze 7.2 15.0 8.0 7.5 600, "10:16:30")] in
  let h := history (session_state
                      (interactions (Some b) (signed_in Absent "admin" [])
                         runs)) in
  length h = 2%nat /\
  Forall2 (records b) h (reverse runs) /\
  (forall r, last runs = Some r ->
             exists e, h !! 0%nat = Some e /\ records b e r).
Proof.
  apply (history_newest_first
           (constant_bundle script_order_names 2 [0.05; 0.10; 0.70; 0.15]%Q)
           Absent "admin"
           [(press_analyze 5.1 10.0 4.0 4.0 300, "10:15:00");
            (press_analyze 7.2 15.0 8.0 7.5 600, "10:16:30")]).
  - split; [reflexivity|]. intros ui. exists 2%Z, [0.05; 0.10; 0.70; 0.15]%Q.
    split; [reflexivity|]. split; [lia | reflexivity].
  - repeat constructor.
Defined.

(** Two analyses evaluated: the later one is at position 0. *)
Example two_analyses :
  history (session_state
             (interactions
                (Some (constant_bundle script_order_names 2
                         [0.05; 0.10; 0.70; 0.15]%Q))
                (signed_in Absent "admin" [])
                [(press_analyze 5.1 10.0 4.0 4.0 300, "10:15:00");
                 (press_analyze 7.2 15.0 8.0 7.5 600, "10:16:30")]))
  = [{| Time := "10:16:30"; Magnitude := 7.2; Level := "HIGH" |};
     {| Time := "10:15:00"; Magnitude := 5.1; Level := "HIGH" |}].
Proof. reflexivity. Qed.

End DashboardFacts.

(** ** The order of the feature vector *)

Section FeatureOrderFacts.

Import Assets Views FeatureOrder.

(** C2, as stated, fails: with the five names in the order of the form
    (MMI before CDI) the position labelled ["mmi"] receives the CDI value
    7.5 and not the MMI value 8.0. *)
Lemma vector_ignores_feature_names :
  ~ vector_ordered_by_feature_names plain_naming form_order_names untouched.
Proof.
  intros Hclaim. destruct Hclaim as (df & row & Hdf & Hdata & Hfollows).
  - reflexivity.
  - injection Hdf as <-. simpl in Hdata. injection Hdata as <-.
    specialize (Hfollows 2%nat f_mmi eq_refl). discriminate Hfollows.
Qed.

(** C2, amended. Whatever five labels [feature_names] holds, the frame
    handed to the scaler carries those labels over the one row (magnitude,
    depth, CDI, MMI, significance), in this fixed order; the value at each
    position is the input named there when the labels are the names of
    these quantities in that same order. *)
Theorem vector_in_script_order (names : list string) (ui : widgets)
  (naming : feature -> string) :
  length names = 5%nat ->
  input_df names ui =
  Return {| columns := names;
            data := [[mag ui; dep ui; cdi ui; mmi ui; inject_Z (sig ui)]] |} /\
  ((forall f g, naming f = naming g -> f = g) ->
   names = naming <$> script_order ->
   follows_names naming names ui (input_row ui)).
Proof.
  intros Hlen. split; [by apply input_df_eq|].
  intros Hinj -> k f Hk.
  destruct k as [|[|[|[|[|k]]]]]; simpl in Hk; try discriminate;
    injection Hk as Hk; apply Hinj in Hk; subst f; reflexivity.
Qed.

Lemma vector_in_script_order_witness :
  input_df form_order_names untouched =
  Return {| columns := ["magnitude"; "depth"; "mmi"; "cdi"; "sig"];
            data := [[7.2; 15.0; 7.5; 8.0; inject_Z 600]]%Q |} /\
  follows_names plain_naming script_order_names untouched
    (input_row untouched).
Proof.
  split.
  - apply (vector_in_script_order form_order_names untouched plain_naming).
    reflexivity.
  - apply (vector_in_script_order script_order_names untouched plain_naming).
    + reflexivity.
    + intros [] []; (reflexivity || discriminate).
    + reflexivity.
Defined.

End FeatureOrderFacts.

(** ** Loading the model bundle *)

Section AssetsFacts.

Import Assets.

(** X1. When [load_assets] returns a bundle, each of the three files
    unpickled to the corresponding member of the bundle and no error is put
    on the page: a bundle is never assembled around a file that failed. *)
Theorem load_assets_bundle_complete (d : output_dir) (b : bundle) :
  fst (load_assets d) = Some b ->
  final_model_pkl d = Unpickled (model b) /\
  scaler_pkl d = Unpickled (scaler b) /\
  feature_names_pkl d = Unpickled (feature_names b) /\
  snd (load_assets d) = [].
Proof.
  unfold load_assets.
  destruct (final_model_pkl d) as [m|e]; [|discriminate].
  destruct (scaler_pkl d) as [sc|e]; [|discriminate].
  destruct (feature_names_pkl d) as [names|e]; [|discriminate].
  simpl. intros [= <-]. by repeat split.
Qed.

Lemma load_assets_bundle_complete_witness :
  let b := constant_bundle script_order_names 2 [0.05; 0.10; 0.70; 0.15]%Q in
  let d := {| final_model_pkl := Unpickled (model b);
              scaler_pkl := Unpickled (scaler b);
              feature_names_pkl := Unpickled (feature_names b) |} in
  final_model_pkl d = Unpickled (model b) /\
  scaler_pkl d = Unpickled (scaler b) /\
  feature_names_pkl d = Unpickled (feature_names b) /\
  snd (load_assets d) = [].
Proof.
  intros b d. apply (load_assets_bundle_complete d b). reflexivity.
Defined.

(** X2. When [load_assets] returns the sentinel, exactly one error is put
    on the page, and its text ends with the exception text of a file that
    did fail. *)
Theorem load_assets_sentinel_reports (d : output_dir) :
  fst (load_assets d) = None ->
  exists e,
    snd (load_assets d) = [st_error ("Error loading model files: " +:+ e)] /\
    (final_model_pkl d = Failing e \/
     scaler_pkl d = Failing e \/
     feature_names_pkl d = Failing e).
Proof.
  unfold load_assets.
  destruct (final_model_pkl d) as [m|e]; [|intros _; exists e; auto].
  destruct (scaler_pkl d) as [sc|e]; [|intros _; exists e; auto].
  destruct (feature_names_pkl d) as [names|e]; [discriminate|].
  intros _. exists e. auto.
Qed.

Lemma load_assets_sentinel_reports_witness :
  let b := constant_bundle script_order_names 2 [0.05; 0.10; 0.70; 0.15]%Q in
  let d := {| final_model_pkl := Unpickled (model b);
              scaler_pkl := Failing "invalid load key";
              feature_names_pkl := Failing "No such file or directory" |} in
  exists e,
    snd (load_assets d) = [st_error ("Error loading model files: " +:+ e)] /\
    (final_model_pkl d = Failing e \/
     scaler_pkl d = Failing e \/
     feature_names_pkl d = Failing e).
Proof.
  intros b d. apply (load_assets_sentinel_reports d). reflexivity.
Defined.

End AssetsFacts.

(** ** The login and registration page *)

Section AuthFacts.

Import CredentialStore Assets Views.

Implicit Types (w : world) (ui : widgets) (users : gmap string string).

Ltac step_script :=
  unfold mbind, script_bind, bind, mret, script_ret, ret, raise, lift, show,
    set_logged_in, set_user, history_insert_front, get_session, put_session;
  simpl.

(** X3. Sign In with a name the store does not have, or with a password
    that differs from the stored one, shows "Invalid Username or Password"
    and changes neither the session nor the file. *)
Theorem sign_in_rejected ui w users :
  load_users w = (Return users, w) ->
  sign_in ui = true ->
  register_now ui = false ->
  users !! login_user ui <> Some (login_pw ui) ->
  auth_page ui w =
  (Return tt, shown w [st_error "Invalid Username or Password"]).
Proof.
  intros Hload Hsign Hreg Hbad. unfold auth_page. step_script.
  rewrite Hsign, Hload, Hreg.
  destruct (users !! login_user ui) as [pw|] eqn:Hpw; [|reflexivity].
  destruct (String.eqb_spec pw (login_pw ui)) as [->|Hne]; [done|reflexivity].
Qed.

Lemma sign_in_rejected_witness :
  auth_page (press_sign_in "admin" "Seismic2024") (fresh_world Absent) =
  (Return tt,
   shown (fresh_world Absent) [st_error "Invalid Username or Password"]).
Proof.
  apply (sign_in_rejected (press_sign_in "admin" "Seismic2024")
           (fresh_world Absent) {[ "admin" := "seismic2024" ]});
    [reflexivity | reflexivity | reflexivity | discriminate].
Defined.

Lemma auth_page_accepts ui w users :
  load_users w = (Return users, w) ->
  sign_in ui = true ->
  users !! login_user ui = Some (login_pw ui) ->
  auth_page ui w =
  (Raise RerunException,
   with_session w {| logged_in := true; user := Some (login_user ui);
                     history := history (session_state w) |}).
Proof.
  intros Hload Hsign Hpw. unfold auth_page. step_script.
  rewrite Hsign, Hload, Hpw, String.eqb_refl. reflexivity.
Qed.

(** X4. Sign In with a name and the password stored for it, whichever
    user of the store it is, sets [logged_in] to [True] and [user] to the
    name and abandons the run; the history, the file and the page are as
    they were. *)
Theorem sign_in_accepted ui w users :
  load_users w = (Return users, w) ->
  sign_in ui = true ->
  users !! login_user ui = Some (login_pw ui) ->
  auth_page ui w =
  (Raise RerunException,
   with_session w {| logged_in := true; user := Some (login_user ui);
                     history := history (session_state w) |}).
Proof.
  intros Hload Hsign Hpw. unfold auth_page. step_script.
  rewrite Hsign, Hload, Hpw, String.eqb_refl. reflexivity.
Qed.

Lemma sign_in_accepted_witness :
  auth_page (press_sign_in "bob" "s3cret")
    (fresh_world (Document {[ "bob" := "s3cret" ]})) =
  (Raise RerunException,
   with_session (fresh_world (Document {[ "bob" := "s3cret" ]}))
     {| logged_in := true; user := Some "bob"; history := [] |}).
Proof.
  apply (sign_in_accepted (press_sign_in "bob" "s3cret")
           (fresh_world (Document {[ "bob" := "s3cret" ]}))
           {[ "bob" := "s3cret" ]});
    reflexivity.
Defined.

(** X5. When the credential file is there but cannot be opened or is not
    JSON, Sign In, and Register Now with both fields filled, end the run with
    the exception of [load_users]: nothing is shown and nothing changes. *)
Theorem auth_page_broken_file ui w :
  users_json w = Unreadable \/ users_json w = Malformed ->
  sign_in ui = true \/
  (register_now ui = true /\ reg_user ui <> "" /\ reg_pw ui <> "") ->
  exists e,
    (e = PermissionError \/ e = JSONDecodeError) /\
    auth_page ui w = (Raise e, w).
Proof.
  intros Hfile Hpress.
  exists (match users_json w with Unreadable => PermissionError
                             | _ => JSONDecodeError end).
  split; [destruct Hfile as [-> | ->]; auto|].
  unfold auth_page, save_user. step_script.
  destruct (sign_in ui) eqn:Hsign.
  - rewrite load_users_eq. by destruct Hfile as [-> | ->].
  - destruct Hpress as [?|(-> & Hu & Hp)]; [done|].
    destruct (reg_user ui); [done|]. destruct (reg_pw ui); [done|]. simpl.
    rewrite load_users_eq. by destruct Hfile as [-> | ->].
Qed.

Lemma auth_page_broken_file_witness :
  exists e,
    (e = PermissionError \/ e = JSONDecodeError) /\
    auth_page (press_register "bob" "s3cret") (fresh_world Malformed)
    = (Raise e, fresh_world Malformed).
Proof.
  apply (auth_page_broken_file (press_register "bob" "s3cret")
           (fresh_world Malformed)).
  - right. reflexivity.
  - right. split; [reflexivity|]. split; discriminate.
Defined.

(** X6. Register Now with an empty name or an empty password shows the
    warning and does not look at the credential file at all: it ends
    normally whatever state the file is in, and nothing changes. *)
Theorem register_empty_field ui w :
  sign_in ui = false ->
  register_now ui = true ->
  reg_user ui = "" \/ reg_pw ui = "" ->
  auth_page ui w =
  (Return tt,
   shown w [st_warning "Please enter both username and password."]).
Proof.
  intros Hsign Hreg Hempty. unfold auth_page. step_script.
  rewrite Hsign, Hreg.
  destruct Hempty as [-> | ->]; [reflexivity|].
  by destruct (reg_user ui).
Qed.

Lemma register_empty_field_witness :
  auth_page (press_register "bob" "") (fresh_world Malformed) =
  (Return tt,
   shown (fresh_world Malformed)
     [st_warning "Please enter both username and password."]).
Proof.
  apply (register_empty_field (press_register "bob" "")
           (fresh_world Malformed));
    [reflexivity | reflexivity | by right].
Defined.




(** X8. Register Now with a name the store already has shows "Username
    already exists." and changes nothing else. *)
Theorem register_conflict_reported ui w users :
  load_users w = (Return users, w) ->
  sign_in ui = false ->
  register_now ui = true ->
  reg_user ui <> "" ->
  reg_pw ui <> "" ->
  is_Some (users !! reg_user ui) ->
  auth_page ui w = (Return tt, shown w [st_error "Username already exists."]).
Proof.
  intros Hload Hsign Hreg Hu Hp Hknown. unfold auth_page. step_script.
  rewrite Hsign, Hreg.
  destruct (reg_user ui) eqn:Eu; [done|]. destruct (reg_pw ui) eqn:Ep; [done|].
  simpl. rewrite (save_user_known w users _ _ Hload Hknown). reflexivity.
Qed.

Lemma register_conflict_reported_witness :
  auth_page (press_register "admin" "mine") (fresh_world Absent) =
  (Return tt, shown (fresh_world Absent) [st_error "Username already exists."]).
Proof.
  apply (register_conflict_reported (press_register "admin" "mine")
           (fresh_world Absent) {[ "admin" := "seismic2024" ]});
    [reflexivity | reflexivity | reflexivity | discriminate | discriminate
    | by eexists].
Defined.

Lemma interact_signed_out assets w r :
  logged_in (session_state w) = false ->
  interact assets w r = snd (auth_page r.1 (cleared w)).
Proof.
  intros Hout. unfold interact, app. step_script.
  change {| users_json := users_json w; session_state := session_state w;
            page := [] |} with (cleared w).
  by rewrite Hout.
Qed.

Lemma interact_signed_in assets w r :
  logged_in (session_state w) = true ->
  interact assets w r = snd (main_dashboard assets r.1 r.2 (cleared w)).
Proof.
  intros Hin. unfold interact, app. step_script.
  change {| users_json := users_json w; session_state := session_state w;
            page := [] |} with (cleared w).
  by rewrite Hin.
Qed.




(** X10. The dashboard's buttons do nothing for a session that is not
    signed in: with neither Sign In nor Register Now pressed, a run leaves
    the world exactly as it was, whatever the sidebar and the form hold. *)
Theorem signed_out_run_is_inert assets ui now w :
  logged_in (session_state w) = false ->
  sign_in ui = false ->
  register_now ui = false ->
  app assets ui now w = (Return tt, w).
Proof.
  intros Hout Hsign Hreg. unfold app, auth_page. step_script.
  rewrite Hout, Hsign, Hreg. by destruct w.
Qed.

Lemma signed_out_run_is_inert_witness :
  app None (press_analyze 7.2 15.0 8.0 7.5 600) "10:15:00" (fresh_world Absent)
  = (Return tt, fresh_world Absent).
Proof.
  apply (signed_out_run_is_inert None (press_analyze 7.2 15.0 8.0 7.5 600)
           "10:15:00" (fresh_world Absent));
    reflexivity.
Defined.

End AuthFacts.

(** ** What a run leaves alone *)

Section FrameRules.

Import CredentialStore Assets Views.

Context (R : relation world) `{!Frame R}.

Lemma preserves_ret {A} (a : A) : preserves R (mret a).
Proof. intros w. apply frame_refl. Qed.

Lemma preserves_raise {A} (e : exn) : preserves R (@raise A e).
Proof. intros w. apply frame_refl. Qed.

Lemma preserves_lift {A} (r : result A) : preserves R (lift r).
Proof. intros w. apply frame_refl. Qed.

Lemma preserves_get_session : preserves R get_session.
Proof. intros w. apply frame_refl. Qed.

Lemma preserves_read_file : preserves R read_file.
Proof. intros w. apply frame_refl. Qed.

Lemma preserves_show (e : element) : preserves R (show e).
Proof. intros w. apply frame_page. Qed.

Lemma preserves_bind {A B} (m : script A) (k : A -> script B) :
  preserves R m -> (forall a, preserves R (k a)) -> preserves R (m ≫= k).
Proof.
  intros Hm Hk w. unfold mbind, script_bind, bind.
  specialize (Hm w). destruct (m w) as [[a|e] w1]; simpl in *; [|exact Hm].
  eapply frame_trans; [exact Hm | apply Hk].
Qed.

Lemma preserves_load_users : preserves R load_users.
Proof. intros w. rewrite load_users_eq. apply frame_refl. Qed.

(** A whole interaction, given that the run on the cleared page is
    covered. *)
Lemma preserves_interactions assets :
  (forall ui now, preserves R (app assets ui now)) ->
  forall runs w, R w (interactions assets w runs).
Proof.
  intros Happ runs. induction runs as [|r runs IH]; intros w.
  - apply frame_refl.
  - eapply frame_trans; [|apply IH].
    eapply frame_trans; [apply (frame_page w [])|apply Happ].
Qed.

End FrameRules.

Ltac preserve_with leaf :=
  repeat first
    [ match goal with
      | |- Frame _ => exact _
      | |- forall _, preserves _ _ => intros ?
      end
    | apply preserves_ret | apply preserves_raise | apply preserves_lift
    | apply preserves_get_session | apply preserves_read_file
    | apply preserves_show | apply preserves_load_users
    | leaf
    | apply preserves_bind
    | match goal with
      | |- preserves _ (match ?x with _ => _ end) => destruct x
      end ].

Section Invariants.

Import CredentialStore Assets Views.

#[local] Instance same_file_frame : Frame same_file.
Proof.
  split; unfold same_file; [done | | done].
  intros w1 w2 w3 H12 H23. by rewrite H23.
Qed.

#[local] Instance history_extended_frame : Frame history_extended.
Proof.
  split; unfold history_extended; [done | | done].
  intros w1 w2 w3 H12 H23. by etrans.
Qed.

#[local] Instance stays_named_frame : Frame stays_named.
Proof. split; unfold stays_named; auto. Qed.

Lemma credentials_eq w :
  credentials w =
  match users_json w with
  | Absent => Return {[ "admin" := "seismic2024" ]}
  | Unreadable => Raise PermissionError
  | Malformed => Raise JSONDecodeError
  | Document users => Return users
  end.
Proof. unfold credentials. by rewrite load_users_eq. Qed.

#[local] Instance credentials_kept_frame : Frame credentials_kept.
Proof.
  split; unfold credentials_kept.
  - intros w users Hw. by exists users.
  - intros w1 w2 w3 H12 H23 users Hw.
    destruct (H12 users Hw) as (users2 & Hw2 & Hsub2).
    destruct (H23 users2 Hw2) as (users3 & Hw3 & Hsub3).
    exists users3. split; [done | by etrans].
  - intros w es users Hw. exists users. split; [|done].
    rewrite credentials_eq in *. exact Hw.
Qed.

(** The session setters against each relation. *)

Lemma same_file_put_session s : preserves same_file (put_session s).
Proof. intros w. red. simpl. try reflexivity; done. Qed.

Lemma history_extended_set_logged_in b :
  preserves history_extended (set_logged_in b).
Proof. intros w. red. simpl. try reflexivity; done. Qed.

Lemma history_extended_set_user u : preserves history_extended (set_user u).
Proof. intros w. red. simpl. try reflexivity; done. Qed.

Lemma history_extended_insert e :
  preserves history_extended (history_insert_front e).
Proof. intros w. red. simpl. by apply suffix_cons_r. Qed.

Lemma history_extended_write_file d : preserves history_extended (write_file d).
Proof. intros w. red. simpl. try reflexivity; done. Qed.

Lemma stays_named_logout : preserves stays_named (set_logged_in false).
Proof. intros w _. by left. Qed.

Lemma stays_named_sign_in {A} u :
  preserves stays_named
    (set_logged_in true;; set_user (Some u);; @raise A RerunException).
Proof.
  intros w _. right.
  unfold mbind, script_bind, bind, set_logged_in, set_user, get_session,
    put_session, raise.
  simpl. by eexists.
Qed.

Lemma stays_named_insert e : preserves stays_named (history_insert_front e).
Proof. intros w. red. simpl. try reflexivity; done. Qed.

Lemma stays_named_write_file d : preserves stays_named (write_file d).
Proof. intros w. red. simpl. try reflexivity; done. Qed.

Lemma same_file_credentials_kept w w' :
  same_file w w' -> credentials_kept w w'.
Proof.
  intros Hfile users Hw. exists users. split; [|done].
  rewrite credentials_eq in *. by rewrite Hfile.
Qed.

Lemma credentials_kept_put_session s :
  preserves credentials_kept (put_session s).
Proof. intros w. by apply same_file_credentials_kept. Qed.

Lemma credentials_kept_save_user username password :
  preserves credentials_kept (save_user username password).
Proof.
  intros w users Hw. rewrite save_user_eq, load_users_eq.
  rewrite credentials_eq in Hw. rewrite Hw.
  destruct (users !! username) eqn:Hname; simpl.
  - exists users. by rewrite credentials_eq.
  - exists (<[username := password]> users). split; [done|].
    by apply insert_subseteq.
Qed.

Lemma app_history_extended assets ui now :
  preserves history_extended (app assets ui now).
Proof.
  unfold app, main_dashboard, auth_page, ml_logic, save_user.
  preserve_with
    ltac:(first [ apply history_extended_set_logged_in
                | apply history_extended_set_user
                | apply history_extended_insert
                | apply history_extended_write_file ]).
Qed.

Lemma app_stays_named assets ui now :
  preserves stays_named (app assets ui now).
Proof.
  unfold app, main_dashboard, auth_page, ml_logic, save_user.
  preserve_with
    ltac:(first [ apply stays_named_logout
                | apply stays_named_sign_in
                | apply stays_named_insert
                | apply stays_named_write_file ]).
Qed.

Lemma app_credentials_kept assets ui now :
  preserves credentials_kept (app assets ui now).
Proof.
  unfold app, main_dashboard, auth_page, ml_logic, set_logged_in, set_user,
    history_insert_front.
  preserve_with
    ltac:(first [ apply credentials_kept_put_session
                | apply credentials_kept_save_user ]).
Qed.

(** X11. The dashboard never touches the credential file: whatever the
    bundle, the widgets and the session are, and however the run ends, the
    file after a run of [main_dashboard] is the file before it. *)
Theorem dashboard_never_writes_file assets ui now w :
  users_json (snd (main_dashboard assets ui now w)) = users_json w.
Proof.
  revert w. change (preserves same_file (main_dashboard assets ui now)).
  unfold main_dashboard, ml_logic, set_logged_in, history_insert_front.
  preserve_with ltac:(apply same_file_put_session).
Qed.

(** X12. Within a browser session the history only grows at the front:
    after any sequence of interactions, whether they sign in, register,
    analyse, log out or end with an exception, the history the session
    started with is still there as the tail of the current one. *)
Theorem history_only_grows assets w runs :
  history (session_state w)
  `suffix_of` history (session_state (interactions assets w runs)).
Proof.
  apply (preserves_interactions history_extended assets).
  apply app_history_extended.
Qed.

(** X13. No interaction removes a credential or changes a stored password:
    if the store can be read before a sequence of interactions, it can be
    read after it and every name it had still has the same password. *)
Theorem credentials_never_lost assets w runs users :
  credentials w = Return users ->
  exists users',
    credentials (interactions assets w runs) = Return users' /\
    users ⊆ users'.
Proof.
  intros Hw.
  by apply (preserves_interactions credentials_kept assets
              (app_credentials_kept assets) runs w).
Qed.

Lemma credentials_never_lost_witness :
  exists users',
    credentials
      (interactions None (fresh_world Absent)
         [(press_register "bob" "s3cret", "10:15:00");
          (press_register "admin" "mine", "10:16:30")])
    = Return users' /\
    ({[ "admin" := "seismic2024" ]} : gmap string string) ⊆ users'.
Proof.
  apply (credentials_never_lost None (fresh_world Absent)
           [(press_register "bob" "s3cret", "10:15:00");
            (press_register "admin" "mine", "10:16:30")]
           {[ "admin" := "seismic2024" ]}).
  reflexivity.
Defined.

Ltac run_cases :=
  unfold app, main_dashboard, auth_page, ml_logic, save_user, load_users,
    input_df, pd_DataFrame, py_getitem, mbind, script_bind, bind, mret,
    script_ret, ret, raise, lift, show, read_file, write_file, set_logged_in,
    set_user, history_insert_front, get_session, put_session;
  simpl;
  repeat match goal with
         | |- context [match ?x with _ => _ end] =>
             lazymatch x with
             | context [match _ with _ => _ end] => fail
             | _ => destruct x; simpl
             end
         end.

Lemma auth_page_no_attribute_error ui w :
  fst (auth_page ui w) <> Raise AttributeError.
Proof. run_cases; discriminate. Qed.

Lemma main_dashboard_no_attribute_error assets ui now w u :
  user (session_state w) = Some u ->
  fst (main_dashboard assets ui now w) <> Raise AttributeError.
Proof.
  intros Hu. unfold main_dashboard, mbind, script_bind, bind, get_session, lift.
  simpl. rewrite Hu. run_cases; discriminate.
Qed.

(** X14. Starting from a fresh browser session, whatever the state of the
    credential file, after any sequence of interactions a signed-in session
    names its user, and the next run does not end with [AttributeError]:
    the [.upper()] of the sidebar header never meets [None]. *)
Theorem signed_in_session_is_named assets (d : user_db) runs ui now :
  named (session_state (interactions assets (fresh_world d) runs)) /\
  fst (app assets ui now (interactions assets (fresh_world d) runs))
  <> Raise AttributeError.
Proof.
  assert (Hnamed :
    named (session_state (interactions assets (fresh_world d) runs))).
  { apply (preserves_interactions stays_named assets
             (app_stays_named assets) runs (fresh_world d)).
    by left. }
  split; [exact Hnamed|].
  set (w := interactions assets (fresh_world d) runs) in *.
  unfold app, mbind, script_bind, bind, get_session. simpl.
  destruct Hnamed as [Hout|[u Hu]].
  - rewrite Hout. apply auth_page_no_attribute_error.
  - destruct (logged_in (session_state w)).
    + by apply (main_dashboard_no_attribute_error _ _ _ _ u).
    + apply auth_page_no_attribute_error.
Qed.

Lemma signed_in_session_is_named_witness :
  named (session_state
           (interactions None (fresh_world Malformed)
              [(press_logout, "10:15:00")])) /\
  fst (app None press_logout "10:16:30"
         (interactions None (fresh_world Malformed)
            [(press_logout, "10:15:00")]))
  <> Raise AttributeError.
Proof.
  apply (signed_in_session_is_named None Malformed
           [(press_logout, "10:15:00")] press_logout "10:16:30").
Defined.

End Invariants.

(** ** More on the dashboard *)

Section PanelFacts.

Import CredentialStore Assets Views.

Implicit Types (w : world) (ui : widgets) (now u : string) (b : bundle).

Ltac step_panel :=
  unfold mbind, script_bind, bind, mret, script_ret, ret, raise, lift, show,
    set_logged_in, set_user, history_insert_front, get_session, put_session;
  simpl.

Lemma py_getitem_IndexError {A} (l : list A) (i : Z) :
  (i < - Z.of_nat (length l) \/ Z.of_nat (length l) <= i)%Z ->
  py_getitem l i = Raise IndexError.
Proof.
  intros Hi. unfold py_getitem.
  destruct (Z.ltb_spec i 0);
    destruct (Z.leb_spec 0 (i + Z.of_nat (length l)));
    destruct (Z.leb_spec 0 i);
    destruct (Z.ltb_spec i (Z.of_nat (length l)));
    destruct (Z.ltb_spec (i + Z.of_nat (length l)) (Z.of_nat (length l)));
    simpl; try reflexivity; lia.
Qed.

(** X15. The System Status panel does not look at the bundle or at the
    credential file: for a signed-in user it always shows "Model Status:
    Online" and "Database: Connected", also when [load_assets] returned the
    sentinel and when the file cannot be read, and it changes nothing. *)
Theorem system_status_is_static assets ui now w u :
  user (session_state w) = Some u ->
  logout ui = false ->
  nav ui = "System Status" ->
  main_dashboard assets ui now w =
  (Return tt,
   shown w [header_of u;
            st_success "Model Status: Online";
            st_success "Database: Connected";
            st_info "Version: 2.1.0 (Pro Edition)"]).
Proof.
  intros Hu Hout Hnav. unfold main_dashboard. step_panel.
  rewrite Hu, Hout, Hnav. simpl. unfold shown. simpl.
  by rewrite <- !app_assoc.
Qed.

Lemma system_status_is_static_witness :
  main_dashboard None (select_panel "System Status") "10:15:00"
    (signed_in Malformed "admin" []) =
  (Return tt,
   shown (signed_in Malformed "admin" [])
     [header_of "admin";
      st_success "Model Status: Online";
      st_success "Database: Connected";
      st_info "Version: 2.1.0 (Pro Edition)"]).
Proof.
  apply (system_status_is_static None (select_panel "System Status")
           "10:15:00" (signed_in Malformed "admin" []) "admin");
    reflexivity.
Defined.

(** X16. A class index outside [-4, 3] makes [levels[pred_idx]] raise
    [IndexError] before anything is stored or shown: the analysis ends with
    the exception and the world, history included, is as it was. *)
Theorem class_index_out_of_range b ui now w i p :
  length (feature_names b) = 5%nat ->
  predict (model b) (scaled_frame b ui) !! 0%nat = Some i ->
  predict_proba (model b) (scaled_frame b ui) !! 0%nat = Some p ->
  (i < -4 \/ 3 < i)%Z ->
  ml_logic b ui now w = (Raise IndexError, w).
Proof.
  intros Hlen Hidx Hprobs Hi. unfold ml_logic. step_panel.
  rewrite (input_df_eq _ _ Hlen).
  change (transform (scaler b) (frame (feature_names b) ui))
    with (scaled_frame b ui).
  rewrite (py_getitem_first _ _ Hidx), (py_getitem_first _ _ Hprobs).
  rewrite (py_getitem_IndexError levels i); [reflexivity|simpl; lia].
Qed.

Lemma class_index_out_of_range_witness :
  ml_logic (constant_bundle script_order_names 4 [0.05; 0.10; 0.70; 0.15]%Q)
    (press_analyze 7.2 15.0 8.0 7.5 600) "10:15:00"
    (signed_in Absent "admin" [])
  = (Raise IndexError, signed_in Absent "admin" []).
Proof.
  apply (class_index_out_of_range
           (constant_bundle script_order_names 4 [0.05; 0.10; 0.70; 0.15]%Q)
           (press_analyze 7.2 15.0 8.0 7.5 600) "10:15:00"
           (signed_in Absent "admin" []) 4 [0.05; 0.10; 0.70; 0.15]%Q);
    [reflexivity | reflexivity | reflexivity | lia].
Defined.

(** X17. A negative class index from -4 to -1 is not rejected: Python
    counts it from the end of [levels], so the history receives the level at
    position [pred_idx + 4] (CRITICAL for -1). *)
Theorem negative_class_index_wraps b ui now w i p :
  length (feature_names b) = 5%nat ->
  predict (model b) (scaled_frame b ui) !! 0%nat = Some i ->
  predict_proba (model b) (scaled_frame b ui) !! 0%nat = Some p ->
  (-4 <= i <= -1)%Z ->
  exists level,
    levels !! Z.to_nat (i + 4) = Some level /\
    history (session_state (snd (ml_logic b ui now w)))
    = {| Time := now; Magnitude := mag ui; Level := level |}
      :: history (session_state w).
Proof.
  intros Hlen Hidx Hprobs Hi.
  assert (Hcases : i = (-4)%Z \/ i = (-3)%Z \/ i = (-2)%Z \/ i = (-1)%Z)
    by lia.
  unfold ml_logic. step_panel.
  rewrite (input_df_eq _ _ Hlen).
  change (transform (scaler b) (frame (feature_names b) ui))
    with (scaled_frame b ui).
  rewrite (py_getitem_first _ _ Hidx), (py_getitem_first _ _ Hprobs).
  destruct Hcases as [-> | [-> | [-> | ->]]]; simpl;
    (eexists; split; [reflexivity|]);
    destruct (py_getitem p _); reflexivity.
Qed.

Lemma negative_class_index_wraps_witness :
  exists level,
    levels !! Z.to_nat (-1 + 4) = Some level /\
    history (session_state
               (snd (ml_logic
                       (constant_bundle script_order_names (-1)
                          [0.05; 0.10; 0.70; 0.15]%Q)
                       (press_analyze 7.2 15.0 8.0 7.5 600) "10:15:00"
                       (signed_in Absent "admin" []))))
    = [{| Time := "10:15:00"; Magnitude := 7.2; Level := level |}].
Proof.
  apply (negative_class_index_wraps
           (constant_bundle script_order_names (-1)
              [0.05; 0.10; 0.70; 0.15]%Q)
           (press_analyze 7.2 15.0 8.0 7.5 600) "10:15:00"
           (signed_in Absent "admin" []) (-1) [0.05; 0.10; 0.70; 0.15]%Q);
    [reflexivity | reflexivity | reflexivity | lia].
Defined.

(** X18. When the probability row is too short to have position
    [pred_idx], the analysis ends with [IndexError] after the history entry
    has been inserted: the history records the analysis although no card and
    no gauge is shown for it. *)
Theorem short_probability_row b ui now w i p :
  length (feature_names b) = 5%nat ->
  predict (model b) (scaled_frame b ui) !! 0%nat = Some i ->
  (0 <= i <= 3)%Z ->
  predict_proba (model b) (scaled_frame b ui) !! 0%nat = Some p ->
  (Z.of_nat (length p) <= i)%Z ->
  exists level,
    levels !! Z.to_nat i = Some level /\
    ml_logic b ui now w =
    (Raise IndexError,
     with_session w
       {| logged_in := logged_in (session_state w);
          user := user (session_state w);
          history := {| Time := now; Magnitude := mag ui; Level := level |}
                     :: history (session_state w) |}).
Proof.
  intros Hlen Hidx Hi Hprobs Hshort.
  destruct (ml_logic_eq b ui now w i p Hlen Hidx Hi Hprobs)
    as (level & color & description & Hlevel & _ & _ & Hrun).
  exists level. split; [exact Hlevel|].
  simpl in Hrun. rewrite Hrun, py_getitem_IndexError; [reflexivity|lia].
Qed.

Lemma short_probability_row_witness :
  exists level,
    levels !! Z.to_nat 2 = Some level /\
    ml_logic (constant_bundle script_order_names 2 [0.4; 0.6]%Q)
      (press_analyze 7.2 15.0 8.0 7.5 600) "10:15:00"
      (signed_in Absent "admin" []) =
    (Raise IndexError,
     with_session (signed_in Absent "admin" [])
       {| logged_in := true; user := Some "admin";
          history := [{| Time := "10:15:00"; Magnitude := 7.2;
                         Level := level |}] |}).
Proof.
  apply (short_probability_row
           (constant_bundle script_order_names 2 [0.4; 0.6]%Q)
           (press_analyze 7.2 15.0 8.0 7.5 600) "10:15:00"
           (signed_in Absent "admin" []) 2 [0.4; 0.6]%Q);
    [reflexivity | reflexivity | lia | reflexivity | simpl; lia].
Defined.

Lemma input_df_ValueError (names : list string) ui :
  length names <> 5%nat -> input_df names ui = Raise ValueError.
Proof.
  intros Hlen. unfold input_df, pd_DataFrame, input_row, forallb.
  destruct (Nat.eqb_spec (length [mag ui; dep ui; cdi ui; mmi ui;
                                  inject_Z (sig ui)]) (length names))
    as [Heq|_]; [|reflexivity].
  simpl in Heq. congruence.
Qed.

(** X19. When [feature_names] does not hold exactly five labels,
    [pd.DataFrame] raises [ValueError]: the analysis ends there, the
    classifier is not consulted, and the world is as it was. *)
Theorem wrong_number_of_labels b ui now w :
  length (feature_names b) <> 5%nat ->
  ml_logic b ui now w = (Raise ValueError, w).
Proof.
  intros Hlen. unfold ml_logic, mbind, script_bind, bind, lift.
  by rewrite (input_df_ValueError _ ui Hlen).
Qed.

Lemma wrong_number_of_labels_witness :
  ml_logic (constant_bundle ["magnitude"; "depth"] 2 [0.05; 0.10; 0.70; 0.15]%Q)
    (press_analyze 7.2 15.0 8.0 7.5 600) "10:15:00"
    (signed_in Absent "admin" [])
  = (Raise ValueError, signed_in Absent "admin" []).
Proof.
  apply (wrong_number_of_labels
           (constant_bundle ["magnitude"; "depth"] 2
              [0.05; 0.10; 0.70; 0.15]%Q)
           (press_analyze 7.2 15.0 8.0 7.5 600) "10:15:00"
           (signed_in Absent "admin" [])).
  simpl. lia.
Defined.



(** Analyses in a row keep the session signed in under the same name. *)
Lemma interactions_analyses_session b u runs : forall w,
  answers b ->
  Forall analysis_run runs ->
  logged_in (session_state w) = true ->
  user (session_state w) = Some u ->
  exists entries,
    session_state (interactions (Some b) w runs)
    = {| logged_in := true; user := Some u;
         history := entries ++ history (session_state w) |} /\
    Forall2 (records b) entries (reverse runs).
Proof.
  induction runs as [|r runs IH]; intros w Hb Hruns Hin Hu.
  - exists []. split; [|constructor]. simpl.
    destruct (session_state w); simpl in *. by subst.
  - apply Forall_cons in Hruns as [Hr Hruns].
    destruct (interact_analysis b w u r Hb Hr Hin Hu) as (e & He & Hs & _).
    destruct (IH (interact (Some b) w r) Hb Hruns) as (entries & Hh & Hall);
      [by rewrite Hs..|].
    exists (entries ++ [e]). split.
    + change (interactions (Some b) w (r :: runs))
        with (interactions (Some b) (interact (Some b) w r) runs).
      rewrite Hh, Hs. simpl. by rewrite <- app_assoc.
    + rewrite reverse_cons. apply Forall2_app; [exact Hall|].
      constructor; [exact He | constructor].
Qed.

(** X21. The Analysis History panel shows what the analyses left: after
    the runs of a signed-in session that started with an empty history, the
    panel shows the placeholder if there was no run, and otherwise one table
    whose rows are the records of the runs, the last run first. *)
Theorem history_panel_after_analyses b (d : user_db) u runs ui now :
  answers b ->
  Forall analysis_run runs ->
  logout ui = false ->
  nav ui = "Analysis History" ->
  exists rows,
    Forall2 (records b) rows (reverse runs) /\
    main_dashboard (Some b) ui now
      (cleared (interactions (Some b) (signed_in d u []) runs)) =
    (Return tt,
     shown (cleared (interactions (Some b) (signed_in d u []) runs))
       [header_of u;
        match rows with
        | [] => st_info "No records found in current session."
        | _ :: _ => history_table rows
        end]).
Proof.
  intros Hb Hruns Hout Hnav.
  destruct (interactions_analyses_session b u runs (signed_in d u []) Hb Hruns)
    as (rows & Hs & Hall); [reflexivity..|].
  simpl in Hs. rewrite app_nil_r in Hs.
  exists rows. split; [exact Hall|].
  unfold main_dashboard. step_panel. rewrite Hs, Hout, Hnav. simpl.
  destruct rows; unfold shown, cleared; simpl; rewrite Hs; reflexivity.
Qed.

Lemma history_panel_after_analyses_witness :
  let b := constant_bundle script_order_names 2 [0.05; 0.10; 0.70; 0.15]%Q in
  let runs := [(press_analyze 5.1 10.0 4.0 4.0 300, "10:15:00");
               (press_analyze 7.2 15.0 8.0 7.5 600, "10:16:30")] in
  exists rows,
    Forall2 (records b) rows (reverse runs) /\
    main_dashboard (Some b) (select_panel "Analysis History") "10:17:00"
      (cleared (interactions (Some b) (signed_in Absent "admin" []) runs)) =
    (Return tt,
     shown (cleared (interactions (Some b) (signed_in Absent "admin" []) runs))
       [header_of "admin";
        match rows with
        | [] => st_info "No records found in current session."
        | _ :: _ => history_table rows
        end]).
Proof.
  apply (history_panel_after_analyses
           (constant_bundle script_order_names 2 [0.05; 0.10; 0.70; 0.15]%Q)
           Absent "admin"
           [(press_analyze 5.1 10.0 4.0 4.0 300, "10:15:00");
            (press_analyze 7.2 15.0 8.0 7.5 600, "10:16:30")]
           (select_panel "Analysis History") "10:17:00").
  - split; [reflexivity|]. intros ui. exists 2%Z, [0.05; 0.10; 0.70; 0.15]%Q.
    split; [reflexivity|]. split; [lia | reflexivity].
  - repeat constructor.
  - reflexivity.
  - reflexivity.
Defined.

(** X22. Logout followed by Sign In keeps the history: when a signed-in
    session logs out and then any user of the store signs in, the session is
    signed in under the new name and still holds the history made under the
    previous one. *)
Theorem history_survives_logout assets w u users name pw t1 t2 :
  logged_in (session_state w) = true ->
  user (session_state w) = Some u ->
  credentials w = Return users ->
  users !! name = Some pw ->
  session_state
    (interactions assets w [(press_logout, t1); (press_sign_in name pw, t2)])
  = {| logged_in := true; user := Some name;
       history := history (session_state w) |}.
Proof.
  intros Hin Hu Hcred Hpw.
  unfold interactions. simpl.
  rewrite (interact_signed_in assets w _ Hin). simpl.
  rewrite (main_dashboard_logout assets press_logout t1 (cleared w) u);
    [|exact Hu|reflexivity].
  rewrite interact_signed_out; [|reflexivity]. simpl.
  rewrite (auth_page_accepts _ _ users); [reflexivity| |reflexivity|exact Hpw].
  rewrite load_users_eq. simpl.
  unfold credentials in Hcred. rewrite load_users_eq in Hcred. simpl in Hcred.
  by rewrite Hcred.
Qed.

Lemma history_survives_logout_witness :
  session_state
    (interactions None
       (signed_in (Document {[ "admin" := "seismic2024"; "bob" := "s3cret" ]})
          "admin"
          [{| Time := "10:15:00"; Magnitude := 7.2; Level := "HIGH" |}])
       [(press_logout, "10:16:00"); (press_sign_in "bob" "s3cret", "10:17:00")])
  = {| logged_in := true; user := Some "bob";
       history := [{| Time := "10:15:00"; Magnitude := 7.2;
                      Level := "HIGH" |}] |}.
Proof.
  apply (history_survives_logout None
           (signed_in
              (Document {[ "admin" := "seismic2024"; "bob" := "s3cret" ]})
              "admin"
              [{| Time := "10:15:00"; Magnitude := 7.2; Level := "HIGH" |}])
           "admin" {[ "admin" := "seismic2024"; "bob" := "s3cret" ]}
           "bob" "s3cret" "10:16:00" "10:17:00");
    reflexivity.
Defined.

End PanelFacts.

(** ** Session state initialisation *)

(** X23. After the initialisation at the top of the script the session
    has its three keys; a key that was there keeps its value, so a rerun
    does not reset the session, and a missing key gets its default:
    signed out, no user, empty history. *)
Theorem initialise_fills_missing_keys (k : session_keys) :
  complete (initialise k) =
  Some {| logged_in := default false (key_logged_in k);
          user := default None (key_user k);
          history := default [] (key_history k) |}.
Proof.
  destruct k as [[l|] [u|] [h|]]; reflexivity.
Qed.
